(** * The heap-profiler sample programs

    A shallow embedding of [samples/heap-profiler.cc] (two variants of the
    same sample: one runs an embedded script, the other reads the script
    from a file named on the command line) and the properties of its
    allocation-profile reporter [PrintAllocationProfile].

    Conventions.
    - [size_t] is the 64-bit unsigned type, [unsigned int] the 32-bit one;
      both are carried by [Z] with the wrap-around written out.
    - A C++ pointer is an [option]: [None] is the null pointer.  Reading
      through a pointer is the operation [deref], which faults on null.
    - [printf] interprets its format string; the standard output of a run
      is the list of the pieces written, one per [printf] call. *)

From Stdlib Require Import ZArith List String Ascii Lia Bool.
From Stdlib Require Import DecimalString.
From Stdlib Require Import Permutation.
Import ListNotations.
Open Scope string_scope.
Open Scope Z_scope.

(** ** Machine arithmetic *)

Module Word.

Definition size_t_bits : Z := 64.
Definition uint_bits : Z := 32.

Definition size_t_mod : Z := 2 ^ size_t_bits.
Definition uint_mod : Z := 2 ^ uint_bits.

(** [size_t] addition and multiplication, [unsigned int] addition. *)
Definition add_size_t (a b : Z) : Z := (a + b) mod size_t_mod.
Definition mul_size_t (a b : Z) : Z := (a * b) mod size_t_mod.
Definition add_uint (a b : Z) : Z := (a + b) mod uint_mod.

End Word.

(** ** C strings and [printf] *)

Module CString.

Definition NUL : ascii := "000"%char.
Definition LF : ascii := "010"%char.

(** A string literal of the source: the escape [\n] stands for a line feed. *)
Fixpoint lit (s : string) : string :=
  match s with
  | EmptyString => EmptyString
  | String c rest =>
      match rest with
      | String d rest' =>
          if (Ascii.eqb c "\" && Ascii.eqb d "n")%bool
          then String LF (lit rest')
          else String c (lit rest)
      | EmptyString => String c EmptyString
      end
  end.

(** What [%s] prints of a buffer: the bytes before the first NUL. *)
Fixpoint c_str (s : string) : string :=
  match s with
  | EmptyString => EmptyString
  | String c rest => if Ascii.eqb c NUL then EmptyString else String c (c_str rest)
  end.

(** Decimal rendering of an integer ([%d], [%u], [%zu]). *)
Definition dec (z : Z) : string := NilZero.string_of_int (Z.to_int z).

Inductive arg : Type :=
| ArgS (s : string)   (* const char*   for %s  *)
| ArgD (z : Z)        (* int           for %d  *)
| ArgU (z : Z)        (* unsigned int  for %u  *)
| ArgZu (z : Z).      (* size_t        for %zu *)

(** The conversions the sample uses.  A conversion whose argument is
    missing or of the wrong kind ends the output. *)
Fixpoint format (fmt : string) (args : list arg) : string :=
  match fmt with
  | EmptyString => EmptyString
  | String c rest =>
      if Ascii.eqb c "%" then
        match rest with
        | String k rest1 =>
            if Ascii.eqb k "s" then
              match args with
              | ArgS s :: args' => c_str s ++ format rest1 args'
              | _ => EmptyString
              end
            else if Ascii.eqb k "d" then
              match args with
              | ArgD z :: args' => dec z ++ format rest1 args'
              | _ => EmptyString
              end
            else if Ascii.eqb k "u" then
              match args with
              | ArgU z :: args' => dec z ++ format rest1 args'
              | _ => EmptyString
              end
            else if Ascii.eqb k "z" then
              match rest1 with
              | String u rest2 =>
                  if Ascii.eqb u "u" then
                    match args with
                    | ArgZu z :: args' => dec z ++ format rest2 args'
                    | _ => EmptyString
                    end
                  else EmptyString
              | EmptyString => EmptyString
              end
            else EmptyString
        | EmptyString => EmptyString
        end
      else String c (format rest args)
  end.

End CString.

(** ** Observable behaviour and the execution monad *)

(** The entry points of the embedding API that the two [main] functions
    call, in the order of a run. *)
Inductive v8_call : Type :=
| InitializeICUDefaultLocation
| InitializeExternalStartupData
| NewDefaultPlatform
| InitializePlatform
| SetFlagsFromString (flags : string)
| V8_Initialize
| Isolate_New
| Context_New
| Global_Set (property : string)
| GetHeapProfiler
| StartSamplingHeapProfiler (sample_interval : Z) (stack_depth : Z)
| String_NewFromUtf8
| Script_Compile
| Script_Run
| GetAllocationProfile
| StopSamplingHeapProfiler
| GetHeapStatistics
| GetHeapSpaceStatistics (index : nat)
| delete_profile
| Isolate_Dispose
| delete_array_buffer_allocator
| V8_Dispose
| V8_DisposePlatform.

Inductive event : Type :=
| Stdout (text : string)
| Stderr (text : string)
| OpenFile (filename : string)
| Call (c : v8_call).

Inductive fault : Type :=
| NullPointer      (* a read through a null pointer *)
| EmptyHandle.     (* ToLocalChecked / ToChecked on an empty handle *)

(** A computation either completes with a value or stops at a fault; in
    both cases it has produced a trace. *)
Inductive result (A : Type) : Type :=
| Ok (a : A) (trace : list event)
| Fault (f : fault) (trace : list event).
Arguments Ok {A} a trace.
Arguments Fault {A} f trace.

Definition M (A : Type) : Type := result A.

Definition ret {A} (a : A) : M A := Ok a [].

Definition bind {A B} (m : M A) (k : A -> M B) : M B :=
  match m with
  | Ok a t1 =>
      match k a with
      | Ok b t2 => Ok b (t1 ++ t2)
      | Fault f t2 => Fault f (t1 ++ t2)
      end
  | Fault f t1 => Fault f t1
  end.

Notation "x <- m ;; k" := (bind m (fun x => k))
  (at level 61, m at next level, right associativity).
Notation "m ;; k" := (bind m (fun _ => k))
  (at level 61, right associativity).

Definition emit (e : event) : M unit := Ok tt [e].
Definition printf (fmt : string) (args : list CString.arg) : M unit :=
  emit (Stdout (CString.format (CString.lit fmt) args)).
Definition cerr (text : string) : M unit := emit (Stderr text).
Definition call (c : v8_call) : M unit := emit (Call c).

Definition trace_of {A} (m : M A) : list event :=
  match m with Ok _ t => t | Fault _ t => t end.

(** The text that reached the standard output. *)
Fixpoint stdout_text (t : list event) : string :=
  match t with
  | [] => EmptyString
  | Stdout s :: t' => s ++ stdout_text t'
  | _ :: t' => stdout_text t'
  end.

(** Pointers. *)
Definition ptr (A : Type) : Type := option A.
Definition is_null {A} (p : ptr A) : bool :=
  match p with None => true | Some _ => false end.
Definition deref {A B} (p : ptr A) (k : A -> M B) : M B :=
  match p with
  | Some a => k a
  | None => Fault NullPointer []
  end.

(** [for (int i = 0; i < n; i++) body] *)
Fixpoint for_n (n : nat) (body : M unit) : M unit :=
  match n with
  | O => ret tt
  | S n' => body ;; for_n n' body
  end.

(** [for (auto x : l) body(x)] *)
Definition for_each {A} (body : A -> M unit) : list A -> M unit :=
  fix go (l : list A) : M unit :=
    match l with
    | [] => ret tt
    | x :: l' => body x ;; go l'
    end.

(** ** The allocation profile *)

(** Modelled from the spec: the declarations of [v8::AllocationProfile]
    (header [v8-profiler.h]) are not among the sources; the records below
    carry the fields the reporter reads, with the widths the spec gives
    ([size : uint64], [count : uint32], [line_number : int32]). *)
Record Allocation : Type := mkAllocation {
  size : Z;
  count : Z
}.

(** Modelled from the spec: a node of the call tree; [children] holds the
    child pointers in insertion order. *)
#[warnings="-register-all"]
Inductive Node : Type := mkNode {
  name : string;
  script_name : string;
  line_number : Z;
  allocations : list Allocation;
  children : list (ptr Node)
}.

(** Modelled from the spec: one raw sample of the profile. *)
Record Sample : Type := mkSample {
  sample_node_id : Z;
  sample_size : Z;
  sample_count : Z
}.

(** Modelled from the spec: the profile, as seen through [GetSamples] and
    [GetRootNode]. *)
Record AllocationProfile : Type := mkProfile {
  GetRootNode : ptr Node;
  GetSamples : list Sample
}.

(** [v8::String::Utf8Value]: the UTF-8 bytes of a string and their number. *)
Module Utf8Value.
Definition length (s : string) : Z := Z.of_nat (String.length s).
Definition star (s : string) : string := s.
End Utf8Value.

(** ** [PrintAllocationProfile] *)

Definition func_name_of (nm : string) : string :=
  if 0 <? Utf8Value.length nm then Utf8Value.star nm else "<anonymous>".

Definition script_name_of (sc : string) : string :=
  if 0 <? Utf8Value.length sc then Utf8Value.star sc else "<unknown>".

(** One turn of the loop over [node->allocations], on the pair
    [(total_size, total_count)]. *)
Definition accumulate (acc : Z * Z) (alloc : Allocation) : Z * Z :=
  (Word.add_size_t (fst acc) (Word.mul_size_t (size alloc) (count alloc)),
   Word.add_uint (snd acc) (count alloc)).

Definition totals (allocs : list Allocation) : Z * Z :=
  fold_left accumulate allocs (0, 0).

Definition total_size (allocs : list Allocation) : Z := fst (totals allocs).
Definition total_count (allocs : list Allocation) : Z := snd (totals allocs).

(** The body of the [traverse] lambda for a node pointer that passed the
    null test and was read. *)
Fixpoint traverse_node (node : Node) (depth : nat) {struct node} : M unit :=
  match node with
  | mkNode nm sc line allocs chn =>
      for_n depth (printf "  " []) ;;
      let func_name := func_name_of nm in
      let script_name := script_name_of sc in
      let tsize := total_size allocs in
      let tcount := total_count allocs in
      (if 0 <? tcount then
         printf "Function: %s (Script: %s, Line: %d)\n"
           [CString.ArgS func_name; CString.ArgS script_name; CString.ArgD line] ;;
         for_n depth (printf "  " []) ;;
         printf "  -> Total: %zu bytes, Count: %u\n"
           [CString.ArgZu tsize; CString.ArgU tcount]
       else ret tt) ;;
      for_each
        (fun child : ptr Node =>
           if is_null child then ret tt
           else deref child (fun c => traverse_node c (S depth)))
        chn
  end.

Definition traverse (node : ptr Node) (depth : nat) : M unit :=
  if is_null node then ret tt
  else deref node (fun n => traverse_node n depth).

Definition PrintAllocationProfile (profile : ptr AllocationProfile) : M unit :=
  if is_null profile then
    printf "No allocation profile available\n" []
  else
    printf "=== Allocation Profile ===\n" [] ;;
    samples <- deref profile (fun p => ret (GetSamples p)) ;;
    printf "Total samples: %zu\n" [CString.ArgZu (Z.of_nat (List.length samples))] ;;
    root <- deref profile (fun p => ret (GetRootNode p)) ;;
    if is_null root then
      printf "No root node found\n" []
    else
      traverse root 0.

(** ** The two [main] functions *)

(** Modelled from the spec: the counters of [v8::HeapStatistics] (header
    [v8-statistics.h], not among the sources) that the samples print. *)
Record HeapStatistics : Type := mkHeapStatistics {
  total_heap_size : Z;
  used_heap_size : Z;
  heap_size_limit : Z;
  number_of_native_contexts : Z;
  total_allocated_bytes : Z
}.

(** Modelled from the spec: [v8::HeapSpaceStatistics], one per heap space. *)
Record HeapSpaceStatistics : Type := mkHeapSpaceStatistics {
  space_name : string;
  space_size : Z;
  space_used_size : Z
}.

(** What the surroundings of a run answer: the file system and the
    runtime.  [run] gives, for a source text, the calls the script makes to
    the global [print] (each with its arguments as UTF-8 text) and the
    completion value as UTF-8 text, or [None] when the run yields an empty
    handle. *)
Record Host : Type := mkHost {
  file_contents : string -> option string;
  new_string : string -> bool;
  compile : string -> bool;
  run : string -> option (list (list string) * string);
  allocation_profile : ptr AllocationProfile;
  heap_statistics : HeapStatistics;
  heap_spaces : list HeapSpaceStatistics
}.

(** [.ToLocalChecked()] on the outcome of an API call. *)
Definition ToLocalChecked (nonempty : bool) : M unit :=
  if nonempty then ret tt else Fault EmptyHandle [].

Definition js_code : string := "
      // Create objects that will generate allocations
      var objects = [];

      function createLargeObjects() {
        for (let i = 0; i < 50; i++) {
          objects.push({
            id: i,
            data: new Array(200).fill('item_' + i),
            nested: {
              value: 'test_string_' + i,
              array: new Array(100).fill(i)
            }
          });
        }
        return objects.length;
      }

      function createStrings() {
        var strings = [];
        for (let i = 0; i < 100; i++) {
          strings.push('This is test string number ' + i + ' with some additional content');
        }
        return strings.length;
      }

      function createMaps() {
        var map = new Map();
        for (let i = 0; i < 50; i++) {
          map.set('key_' + i, 'value_' + i);
        }
        return map.size;
      }

      // Execute allocation-heavy functions
      var objectCount = createLargeObjects();
      var stringCount = createStrings();
      var mapSize = createMaps();

      'Created ' + objectCount + ' objects, ' + stringCount + ' strings, and map with ' + mapSize + ' entries';
    ".

Definition initialize_v8 (flags : list string) : M unit :=
  call InitializeICUDefaultLocation ;;
  call InitializeExternalStartupData ;;
  call NewDefaultPlatform ;;
  call InitializePlatform ;;
  for_each (fun f => call (SetFlagsFromString f)) flags ;;
  call V8_Initialize.

Definition tear_down_v8 : M unit :=
  call Isolate_Dispose ;;
  call delete_array_buffer_allocator ;;
  call V8_Dispose ;;
  call V8_DisposePlatform.

(** Compile and run [source]; gives the script's [print] calls and its
    completion value. *)
Definition compile_and_run (h : Host) (source : string)
  : M (list (list string) * string) :=
  call String_NewFromUtf8 ;;
  ToLocalChecked (new_string h source) ;;
  call Script_Compile ;;
  ToLocalChecked (compile h source) ;;
  call Script_Run ;;
  match run h source with
  | Some outcome => ret outcome
  | None => Fault EmptyHandle []
  end.

(** The loop over the heap spaces of the first sample. *)
Fixpoint print_heap_spaces (i : nat) (spaces : list HeapSpaceStatistics) : M unit :=
  match spaces with
  | [] => ret tt
  | heap_space_stats :: spaces' =>
      call (GetHeapSpaceStatistics i) ;;
      printf "\n=== Heap Space Statistics ===\n" [] ;;
      printf "Space name: %s\n" [CString.ArgS (space_name heap_space_stats)] ;;
      printf "Total space size: %zu bytes\n" [CString.ArgZu (space_size heap_space_stats)] ;;
      printf "Used space size: %zu bytes\n" [CString.ArgZu (space_used_size heap_space_stats)] ;;
      print_heap_spaces (S i) spaces'
  end.

(** [main] of the sample with the embedded script. *)
Definition main_embedded (h : Host) : M Z :=
  initialize_v8 [] ;;
  call Isolate_New ;;
  call Context_New ;;
  printf "=== V8 Heap Profiler Example ===\n" [] ;;
  call GetHeapProfiler ;;
  printf "Starting allocation sampling...\n" [] ;;
  call (StartSamplingHeapProfiler 1024 16) ;;
  printf "Executing JavaScript code to generate allocations...\n" [] ;;
  outcome <- compile_and_run h js_code ;;
  printf "Result: %s\n" [CString.ArgS (snd outcome)] ;;
  printf "Stopping allocation sampling...\n" [] ;;
  call GetAllocationProfile ;;
  let profile := allocation_profile h in
  call StopSamplingHeapProfiler ;;
  PrintAllocationProfile profile ;;
  call GetHeapStatistics ;;
  let heap_stats := heap_statistics h in
  printf "\n=== Heap Statistics ===\n" [] ;;
  printf "Total heap size: %zu bytes\n" [CString.ArgZu (total_heap_size heap_stats)] ;;
  printf "Used heap size: %zu bytes\n" [CString.ArgZu (used_heap_size heap_stats)] ;;
  printf "Heap size limit: %zu bytes\n" [CString.ArgZu (heap_size_limit heap_stats)] ;;
  printf "Number of native contexts: %zu\n"
    [CString.ArgZu (number_of_native_contexts heap_stats)] ;;
  print_heap_spaces 0 (heap_spaces h) ;;
  call delete_profile ;;
  tear_down_v8 ;;
  printf "Heap profiler example completed successfully!\n" [] ;;
  ret 0.

(** [ReadFile]: the contents of the file, the empty string when it cannot
    be opened. *)
Definition ReadFile (h : Host) (filename : string) : M string :=
  emit (OpenFile filename) ;;
  match file_contents h filename with
  | None =>
      cerr ("Error: Could not open file " ++ CString.c_str filename
              ++ String CString.LF EmptyString) ;;
      ret EmptyString
  | Some content => ret content
  end.

(** The callback installed as the global [print]: the arguments separated
    by one space, then a line feed. *)
Fixpoint print_args (i : nat) (args : list string) : M unit :=
  match args with
  | [] => ret tt
  | str :: args' =>
      (if (0 <? i)%nat then printf " " [] else ret tt) ;;
      printf "%s" [CString.ArgS str] ;;
      print_args (S i) args'
  end.

Definition print_callback (args : list string) : M unit :=
  print_args 0 args ;;
  printf "\n" [].

(** [main] of the sample that reads the script from a file.  [argv0] is
    [argv[0]] and [args] the arguments after it, so [argc] is one more
    than the length of [args]. *)
Definition main_file (h : Host) (argv0 : string) (args : list string) : M Z :=
  let argc := 1 + Z.of_nat (List.length args) in
  if argc <? 2 then
    cerr ("Usage: " ++ CString.c_str argv0 ++ " <javascript_file>"
            ++ String CString.LF EmptyString) ;;
    cerr ("Example: " ++ CString.c_str argv0 ++ " test.js"
            ++ String CString.LF EmptyString) ;;
    ret 1
  else
    let argv1 := hd EmptyString args in
    initialize_v8 ["--expose-gc"] ;;
    call Isolate_New ;;
    call Context_New ;;
    call (Global_Set "print") ;;
    printf "=== V8 Heap Profiler Example ===\n" [] ;;
    call GetHeapProfiler ;;
    printf "Starting allocation sampling...\n" [] ;;
    call (StartSamplingHeapProfiler 1024 16) ;;
    js <- ReadFile h argv1 ;;
    if (String.length js =? 0)%nat then
      cerr ("Failed to read JavaScript file: " ++ CString.c_str argv1
              ++ String CString.LF EmptyString) ;;
      ret 1
    else
      printf "Executing JavaScript code from file: %s\n" [CString.ArgS argv1] ;;
      outcome <- compile_and_run h (CString.c_str js) ;;
      for_each print_callback (fst outcome) ;;
      printf "Result: %s\n" [CString.ArgS (snd outcome)] ;;
      printf "Stopping allocation sampling...\n" [] ;;
      call GetAllocationProfile ;;
      call StopSamplingHeapProfiler ;;
      call GetHeapStatistics ;;
      let heap_stats := heap_statistics h in
      printf "\n=== Basic Heap Statistics ===\n" [] ;;
      printf "Total heap size: %zu bytes\n" [CString.ArgZu (total_heap_size heap_stats)] ;;
      printf "Used heap size: %zu bytes\n" [CString.ArgZu (used_heap_size heap_stats)] ;;
      printf "Total allocated bytes: %zu bytes\n"
        [CString.ArgZu (total_allocated_bytes heap_stats)] ;;
      call delete_profile ;;
      tear_down_v8 ;;
      printf "Heap profiler example completed successfully!\n" [] ;;
      ret 0.

(** ** The report as the specification words it *)

Module Report.

Definition nl : string := String CString.LF EmptyString.

(** The identifying line of a node. *)
Definition header_line (function script : string) (line : Z) : string :=
  "Function: " ++ function ++ " (Script: " ++ script ++ ", Line: "
    ++ CString.dec line ++ ")" ++ nl.

(** The summary line of a node, without its indentation. *)
Definition summary_line (bytes n : Z) : string :=
  "-> Total: " ++ CString.dec bytes ++ " bytes, Count: " ++ CString.dec n ++ nl.

(** The names as they are shown. *)
Definition shown_function (nm : string) : string :=
  match nm with
  | EmptyString => "<anonymous>"
  | _ => CString.c_str nm
  end.

Definition shown_script (sc : string) : string :=
  match sc with
  | EmptyString => "<unknown>"
  | _ => CString.c_str sc
  end.

(** The sums of the specification, over the integers. *)
Definition sum_sizes (allocs : list Allocation) : Z :=
  fold_right (fun a acc => size a * count a + acc) 0 allocs.

Definition sum_counts (allocs : list Allocation) : Z :=
  fold_right (fun a acc => count a + acc) 0 allocs.

(** The indentation of a node at depth [d]: [d] writes of two spaces. *)
Definition indentation (d : nat) : list event := repeat (Stdout "  ") d.

Fixpoint spaces (n : nat) : string :=
  match n with
  | O => EmptyString
  | S n' => String " " (spaces n')
  end.

(** The two lines of a node whose totals are [bytes] and [n]. *)
Definition node_lines (nm sc : string) (line : Z) (bytes n : Z) (d : nat)
  : list event :=
  [Stdout (header_line (shown_function nm) (shown_script sc) line)]
    ++ indentation d ++ [Stdout ("  " ++ summary_line bytes n)].

(** What one visit writes. *)
Definition node_report (node : Node) (d : nat) : list event :=
  indentation d ++
  (if 0 <? total_count (allocations node)
   then node_lines (name node) (script_name node) (line_number node)
          (total_size (allocations node)) (total_count (allocations node)) d
   else []).

(** Depth-first pre-order: a node, then the subtrees of its children in the
    order of the child list, one level deeper; a null child has no subtree. *)
Fixpoint preorder (node : Node) (d : nat) {struct node} : list (Node * nat) :=
  match node with
  | mkNode _ _ _ _ chn =>
      (node, d) ::
      flat_map (fun child : ptr Node =>
                  match child with
                  | Some c => preorder c (S d)
                  | None => []
                  end) chn
  end.

(** The messages with which the reporter says that it has nothing to show. *)
Definition no_data_messages : list string :=
  [CString.lit "No allocation profile available\n";
   CString.lit "No root node found\n"].

Definition indicates_no_data (t : list event) : Prop :=
  exists s, In s no_data_messages /\ In (Stdout s) t.

(** The heap-statistics block of the sample with the embedded script. *)
Definition heap_statistics_block (hs : HeapStatistics) : list event :=
  [Stdout (nl ++ "=== Heap Statistics ===" ++ nl);
   Stdout ("Total heap size: " ++ CString.dec (total_heap_size hs) ++ " bytes" ++ nl);
   Stdout ("Used heap size: " ++ CString.dec (used_heap_size hs) ++ " bytes" ++ nl);
   Stdout ("Heap size limit: " ++ CString.dec (heap_size_limit hs) ++ " bytes" ++ nl);
   Stdout ("Number of native contexts: "
             ++ CString.dec (number_of_native_contexts hs) ++ nl)].

(** The triple of one heap space. *)
Definition heap_space_triple (sp : HeapSpaceStatistics) : list event :=
  [Stdout ("Space name: " ++ CString.c_str (space_name sp) ++ nl);
   Stdout ("Total space size: " ++ CString.dec (space_size sp) ++ " bytes" ++ nl);
   Stdout ("Used space size: " ++ CString.dec (space_used_size sp) ++ " bytes" ++ nl)].

Fixpoint heap_space_blocks (i : nat) (spaces : list HeapSpaceStatistics)
  : list event :=
  match spaces with
  | [] => []
  | sp :: spaces' =>
      [Call (GetHeapSpaceStatistics i);
       Stdout (nl ++ "=== Heap Space Statistics ===" ++ nl)]
        ++ heap_space_triple sp ++ heap_space_blocks (S i) spaces'
  end.

(** The block of the sample that reads its script from a file. *)
Definition basic_heap_statistics_block (hs : HeapStatistics) : list event :=
  [Stdout (nl ++ "=== Basic Heap Statistics ===" ++ nl);
   Stdout ("Total heap size: " ++ CString.dec (total_heap_size hs) ++ " bytes" ++ nl);
   Stdout ("Used heap size: " ++ CString.dec (used_heap_size hs) ++ " bytes" ++ nl);
   Stdout ("Total allocated bytes: "
             ++ CString.dec (total_allocated_bytes hs) ++ " bytes" ++ nl)].

(** A trace lists the limit and the spaces when it holds the line of the
    heap size limit and, for every heap space, the three lines of its
    triple. *)
Definition lists_limit_and_spaces (h : Host) (t : list event) : Prop :=
  In (Stdout ("Heap size limit: "
                ++ CString.dec (heap_size_limit (heap_statistics h))
                ++ " bytes" ++ nl)) t
  /\ Forall (fun sp => incl (heap_space_triple sp) t) (heap_spaces h).

End Report.

(** ** The traces of the two programs *)

Module Run.

(** Start of the sample with the embedded script, up to the moment the
    profile has been fetched and the sampling stopped; [result] is the
    completion value of the script. *)
Definition embedded_prologue (result : string) : list event :=
  [Call InitializeICUDefaultLocation; Call InitializeExternalStartupData;
   Call NewDefaultPlatform; Call InitializePlatform; Call V8_Initialize;
   Call Isolate_New; Call Context_New;
   Stdout (CString.lit "=== V8 Heap Profiler Example ===\n");
   Call GetHeapProfiler;
   Stdout (CString.lit "Starting allocation sampling...\n");
   Call (StartSamplingHeapProfiler 1024 16);
   Stdout (CString.lit "Executing JavaScript code to generate allocations...\n");
   Call String_NewFromUtf8; Call Script_Compile; Call Script_Run;
   Stdout ("Result: " ++ CString.c_str result ++ Report.nl);
   Stdout (CString.lit "Stopping allocation sampling...\n");
   Call GetAllocationProfile; Call StopSamplingHeapProfiler].

(** Start of the sample that reads its script from [path], up to the run
    of the script. *)
Definition file_prologue (path : string) : list event :=
  [Call InitializeICUDefaultLocation; Call InitializeExternalStartupData;
   Call NewDefaultPlatform; Call InitializePlatform;
   Call (SetFlagsFromString "--expose-gc"); Call V8_Initialize;
   Call Isolate_New; Call Context_New; Call (Global_Set "print");
   Stdout (CString.lit "=== V8 Heap Profiler Example ===\n");
   Call GetHeapProfiler;
   Stdout (CString.lit "Starting allocation sampling...\n");
   Call (StartSamplingHeapProfiler 1024 16);
   OpenFile path;
   Stdout ("Executing JavaScript code from file: " ++ CString.c_str path
             ++ Report.nl);
   Call String_NewFromUtf8; Call Script_Compile; Call Script_Run].

(** What the script writes through [print]. *)
Definition printed (calls : list (list string)) : list event :=
  flat_map (fun args => trace_of (print_callback args)) calls.

(** After the run of the script, in the sample that reads a file. *)
Definition file_results (result : string) : list event :=
  [Stdout ("Result: " ++ CString.c_str result ++ Report.nl);
   Stdout (CString.lit "Stopping allocation sampling...\n");
   Call GetAllocationProfile; Call StopSamplingHeapProfiler].

(** The end of both samples. *)
Definition epilogue : list event :=
  [Call delete_profile; Call Isolate_Dispose; Call delete_array_buffer_allocator;
   Call V8_Dispose; Call V8_DisposePlatform;
   Stdout (CString.lit "Heap profiler example completed successfully!\n")].

(** A host for examples: one script file, a profile with one reported
    node, two heap spaces. *)
Definition sample_host : Host :=
  mkHost
    (fun filename => if String.eqb filename "test.js" then Some "gc();" else None)
    (fun _ => true)
    (fun _ => true)
    (fun _ => Some ([["Starting allocation test..."]], "undefined"))
    (Some (mkProfile
             (Some (mkNode "(root)" EmptyString 0 []
                      [Some (mkNode "createStrings" "test.js" 34
                               [mkAllocation 16 3; mkAllocation 32 1] [])]))
             []))
    (mkHeapStatistics 1000 600 4000 1 700)
    [mkHeapSpaceStatistics "new_space" 100 50;
     mkHeapSpaceStatistics "old_space" 200 70].

End Run.

(** ** Observations on runs *)

(** The exit status of a run that returns; [None] for a run that stops at
    a fault. *)
Definition status {A} (m : M A) : option A :=
  match m with
  | Ok a _ => Some a
  | Fault _ _ => None
  end.


Definition is_some {A} (o : option A) : bool :=
  match o with
  | Some _ => true
  | None => false
  end.

(** The child pointers that are not null. *)
Definition non_null_children (chn : list (ptr Node)) : list (ptr Node) :=
  filter (fun child => negb (is_null child)) chn.

(** Start of the sample that reads its script from [path], up to the
    attempt to open the file. *)
Definition file_start (path : string) : list event :=
  [Call InitializeICUDefaultLocation; Call InitializeExternalStartupData;
   Call NewDefaultPlatform; Call InitializePlatform;
   Call (SetFlagsFromString "--expose-gc"); Call V8_Initialize;
   Call Isolate_New; Call Context_New; Call (Global_Set "print");
   Stdout (CString.lit "=== V8 Heap Profiler Example ===\n");
   Call GetHeapProfiler;
   Stdout (CString.lit "Starting allocation sampling...\n");
   Call (StartSamplingHeapProfiler 1024 16);
   OpenFile path].

(** A host in which every file has the contents [js]. *)
Definition with_contents (h : Host) (js : string) : Host :=
  mkHost (fun _ => Some js) (new_string h) (compile h) (run h)
    (allocation_profile h) (heap_statistics h) (heap_spaces h).

(** The trace of the loop over the children of a node at depth [d]. *)
Definition children_trace (chn : list (ptr Node)) (d : nat) : list event :=
  flat_map (fun child => trace_of (traverse child d)) chn.

(** A computation that completes. *)
Definition completes (m : M unit) : Prop := m = Ok tt (trace_of m).

(** Induction over a tree, with the hypothesis for every non-null child. *)
Section Node_induction.
Variable P : Node -> Prop.
Hypothesis step :
  forall nm sc line allocs chn,
    Forall (fun child : ptr Node =>
              match child with Some c => P c | None => True end) chn ->
    P (mkNode nm sc line allocs chn).

Fixpoint Node_induction (node : Node) : P node :=
  match node with
  | mkNode nm sc line allocs chn =>
      step nm sc line allocs chn
        ((fix all (l : list (ptr Node)) :
            Forall (fun child : ptr Node =>
                      match child with Some c => P c | None => True end) l :=
            match l with
            | [] => Forall_nil _
            | child :: l' =>
                Forall_cons child
                  (match child as c0
                         return match c0 with Some c => P c | None => True end
                   with
                   | Some c => Node_induction c
                   | None => I
                   end)
                  (all l')
            end) chn)
  end.
End Node_induction.

(** * Properties *)

(** ** The monad and the loops *)

Lemma bind_completes (m : M unit) (k : unit -> M unit) :
  completes m -> completes (k tt) ->
  bind m k = Ok tt (trace_of m ++ trace_of (k tt)).
Proof.
  unfold completes. intros Hm Hk.
  destruct m as [[] t1 | f t1]; [ | discriminate Hm ].
  simpl. destruct (k tt) as [[] t2 | f t2]; [ reflexivity | discriminate Hk ].
Qed.

Lemma completes_Ok (t : list event) : completes (Ok tt t).
Proof. reflexivity. Qed.

Lemma completes_bind (m : M unit) (k : unit -> M unit) :
  completes m -> completes (k tt) -> completes (bind m k).
Proof.
  intros Hm Hk. unfold completes.
  rewrite (bind_completes m k Hm Hk). reflexivity.
Qed.

Lemma indent_trace (d : nat) :
  for_n d (printf "  " []) = Ok tt (Report.indentation d).
Proof.
  induction d as [ | d IH ]; [ reflexivity | ].
  simpl for_n. rewrite IH. reflexivity.
Qed.

Lemma for_each_completes {A} (body : A -> M unit) (l : list A) :
  Forall (fun x => completes (body x)) l ->
  for_each body l = Ok tt (flat_map (fun x => trace_of (body x)) l).
Proof.
  induction 1 as [ | x l Hx _ IH ]; [ reflexivity | ].
  simpl for_each. simpl flat_map.
  rewrite (bind_completes (body x) (fun _ => for_each body l)).
  - rewrite IH. reflexivity.
  - exact Hx.
  - rewrite IH. apply completes_Ok.
Qed.

(** ** The printed lines *)

Lemma header_printed (f s : string) (line : Z) :
  printf "Function: %s (Script: %s, Line: %d)\n"
    [CString.ArgS f; CString.ArgS s; CString.ArgD line]
  = Ok tt [Stdout (Report.header_line (CString.c_str f) (CString.c_str s) line)].
Proof. reflexivity. Qed.

Lemma summary_printed (bytes n : Z) :
  printf "  -> Total: %zu bytes, Count: %u\n" [CString.ArgZu bytes; CString.ArgU n]
  = Ok tt [Stdout ("  " ++ Report.summary_line bytes n)].
Proof. reflexivity. Qed.

Lemma shown_function_eq (nm : string) :
  CString.c_str (func_name_of nm) = Report.shown_function nm.
Proof. destruct nm; reflexivity. Qed.

Lemma shown_script_eq (sc : string) :
  CString.c_str (script_name_of sc) = Report.shown_script sc.
Proof. destruct sc; reflexivity. Qed.

(** ** The traversal *)

(** The lines of a node, as the lambda writes them after the indentation. *)
Lemma own_lines_trace (nm sc : string) (line : Z) (allocs : list Allocation) (d : nat) :
  (if 0 <? total_count allocs then
     printf "Function: %s (Script: %s, Line: %d)\n"
       [CString.ArgS (func_name_of nm); CString.ArgS (script_name_of sc);
        CString.ArgD line] ;;
     for_n d (printf "  " []) ;;
     printf "  -> Total: %zu bytes, Count: %u\n"
       [CString.ArgZu (total_size allocs); CString.ArgU (total_count allocs)]
   else ret tt)
  = Ok tt (if 0 <? total_count allocs
           then Report.node_lines nm sc line (total_size allocs) (total_count allocs) d
           else []).
Proof.
  destruct (0 <? total_count allocs); [ | reflexivity ].
  rewrite header_printed, summary_printed, indent_trace.
  rewrite shown_function_eq, shown_script_eq. reflexivity.
Qed.

Lemma traverse_node_step (nm sc : string) (line : Z) (allocs : list Allocation)
    (chn : list (ptr Node)) (d : nat) :
  Forall (fun child => completes (traverse child (S d))) chn ->
  traverse_node (mkNode nm sc line allocs chn) d
  = Ok tt (Report.node_report (mkNode nm sc line allocs chn) d
             ++ children_trace chn (S d)).
Proof.
  intros Hchn.
  change (traverse_node (mkNode nm sc line allocs chn) d)
    with (for_n d (printf "  " []) ;;
          (if 0 <? total_count allocs then
             printf "Function: %s (Script: %s, Line: %d)\n"
               [CString.ArgS (func_name_of nm); CString.ArgS (script_name_of sc);
                CString.ArgD line] ;;
             for_n d (printf "  " []) ;;
             printf "  -> Total: %zu bytes, Count: %u\n"
               [CString.ArgZu (total_size allocs); CString.ArgU (total_count allocs)]
           else ret tt) ;;
          for_each (fun child => traverse child (S d)) chn).
  rewrite own_lines_trace, indent_trace, (for_each_completes _ _ Hchn).
  unfold Report.node_report, children_trace. simpl.
  rewrite app_assoc. reflexivity.
Qed.

Lemma traverse_node_completes (node : Node) :
  forall d, completes (traverse_node node d).
Proof.
  induction node as [nm sc line allocs chn IH] using Node_induction.
  intros d. unfold completes. rewrite traverse_node_step.
  - reflexivity.
  - clear -IH. induction IH as [ | child chn Hc _ IHl ]; constructor; [ | exact IHl ].
    destruct child as [c | ]; [ apply Hc | reflexivity ].
Qed.

Lemma traverse_completes (node : ptr Node) (d : nat) : completes (traverse node d).
Proof.
  destruct node as [n | ]; [ apply traverse_node_completes | reflexivity ].
Qed.

Lemma children_complete (chn : list (ptr Node)) (d : nat) :
  Forall (fun child => completes (traverse child d)) chn.
Proof. apply Forall_forall. intros child _. apply traverse_completes. Qed.

(** The equation of the traversal at a non-null node. *)
Lemma traverse_unfold (nm sc : string) (line : Z) (allocs : list Allocation)
    (chn : list (ptr Node)) (d : nat) :
  traverse (Some (mkNode nm sc line allocs chn)) d
  = Ok tt (Report.node_report (mkNode nm sc line allocs chn) d
             ++ children_trace chn (S d)).
Proof. apply traverse_node_step, children_complete. Qed.

Lemma loop_over_children (chn : list (ptr Node)) (d : nat) :
  for_each (fun child => traverse child d) chn = Ok tt (children_trace chn d).
Proof. apply for_each_completes, children_complete. Qed.

(** ** The totals *)

Lemma fold_accumulate (allocs : list Allocation) :
  forall a b,
    fold_left accumulate allocs (a mod Word.size_t_mod, b mod Word.uint_mod)
    = ((a + Report.sum_sizes allocs) mod Word.size_t_mod,
       (b + Report.sum_counts allocs) mod Word.uint_mod).
Proof.
  induction allocs as [ | x allocs IH ]; intros a b; simpl.
  - rewrite !Z.add_0_r. reflexivity.
  - unfold accumulate at 2. simpl fst. simpl snd.
    unfold Word.add_size_t, Word.mul_size_t, Word.add_uint.
    rewrite Zplus_mod_idemp_l, Zplus_mod_idemp_r, Zplus_mod_idemp_l.
    rewrite IH. f_equal; f_equal; lia.
Qed.

Lemma totals_modular (allocs : list Allocation) :
  total_size allocs = Report.sum_sizes allocs mod Word.size_t_mod
  /\ total_count allocs = Report.sum_counts allocs mod Word.uint_mod.
Proof.
  unfold total_size, total_count, totals.
  change (0, 0) with (0 mod Word.size_t_mod, 0 mod Word.uint_mod).
  rewrite fold_accumulate. simpl. split; reflexivity.
Qed.

(** ** The reporter *)

Lemma report_of_root (root : Node) (samples : list Sample) :
  PrintAllocationProfile (Some (mkProfile (Some root) samples))
  = Ok tt ([Stdout (CString.lit "=== Allocation Profile ===\n");
            Stdout ("Total samples: "
                      ++ CString.dec (Z.of_nat (List.length samples)) ++ Report.nl)]
             ++ trace_of (traverse (Some root) 0)).
Proof.
  pose proof (traverse_completes (Some root) 0) as Hroot.
  unfold completes in Hroot. revert Hroot.
  generalize (trace_of (traverse (Some root) 0)). intros t Ht.
  cbn -[traverse CString.dec]. rewrite Ht. reflexivity.
Qed.

Lemma PrintAllocationProfile_completes (profile : ptr AllocationProfile) :
  completes (PrintAllocationProfile profile).
Proof.
  destruct profile as [[[root | ] samples] | ].
  - unfold completes. rewrite report_of_root. reflexivity.
  - reflexivity.
  - reflexivity.
Qed.

Lemma flat_map_nested {A B C} (f : B -> list C) (g : A -> list B) (l : list A) :
  flat_map f (flat_map g l) = flat_map (fun x => flat_map f (g x)) l.
Proof.
  induction l as [ | x l IH ]; [ reflexivity | ].
  simpl. rewrite flat_map_app, IH. reflexivity.
Qed.

Lemma traverse_node_preorder (node : Node) :
  forall d,
    trace_of (traverse_node node d)
    = flat_map (fun v => Report.node_report (fst v) (snd v)) (Report.preorder node d).
Proof.
  induction node as [nm sc line allocs chn IH] using Node_induction.
  intros d.
  change (traverse_node (mkNode nm sc line allocs chn) d)
    with (traverse (Some (mkNode nm sc line allocs chn)) d).
  rewrite traverse_unfold. simpl trace_of. simpl Report.preorder.
  simpl flat_map. f_equal.
  rewrite flat_map_nested. unfold children_trace.
  induction IH as [ | child chn Hc _ IHl ]; [ reflexivity | ].
  simpl. rewrite IHl. f_equal.
  destruct child as [c | ]; [ apply Hc | reflexivity ].
Qed.

Lemma stdout_text_app (t1 t2 : list event) :
  stdout_text (t1 ++ t2) = stdout_text t1 ++ stdout_text t2.
Proof.
  induction t1 as [ | e t1 IH ]; [ reflexivity | ].
  destruct e; simpl; rewrite IH; try reflexivity.
  induction text as [ | c text IHt ]; simpl; [ reflexivity | now rewrite IHt ].
Qed.

Lemma indentation_text (d : nat) :
  stdout_text (Report.indentation d) = Report.spaces (2 * d).
Proof.
  induction d as [ | d IH ]; [ reflexivity | ].
  replace (2 * S d)%nat with (S (S (2 * d))) by lia.
  simpl. unfold Report.indentation in IH. rewrite IH. reflexivity.
Qed.

(** ** Claims about the reporter *)

(** C1, as stated, fails: a node may hold a record and still get no line,
    because the lines are guarded by [total_count > 0] and not by the
    presence of a record; and the totals are sums in machine arithmetic:
    one record of size 2^63 and count 2 is reported with 0 bytes. *)
Lemma own_totals_counterexample :
  (allocations (mkNode "f" "s.js" 1 [mkAllocation 16 0] []) <> []
   /\ traverse (Some (mkNode "f" "s.js" 1 [mkAllocation 16 0] [])) 0 = Ok tt [])
  /\ (Report.sum_sizes [mkAllocation (2 ^ 63) 2] = 2 ^ 64
      /\ traverse (Some (mkNode "f" "s.js" 1 [mkAllocation (2 ^ 63) 2] [])) 0
         = Ok tt [Stdout (Report.header_line "f" "s.js" 1);
                  Stdout ("  " ++ Report.summary_line 0 2)]).
Proof.
  split; split.
  - discriminate.
  - reflexivity.
  - reflexivity.
  - vm_compute. reflexivity.
Qed.

(** C1 (amended): for every node whose total count, the sum of the counts
    of its own records reduced modulo 2^32, is positive, the reporter
    writes, after the indentation, exactly one identifying line and one
    summary line; the summary carries the sum of size times count modulo
    2^64 and the sum of the counts modulo 2^32, both over the node's own
    records; the children contribute only their own traces, afterwards. *)
Theorem own_totals_reported (nm sc : string) (line : Z) (allocs : list Allocation)
    (chn : list (ptr Node)) (d : nat) :
  0 < Report.sum_counts allocs mod Word.uint_mod ->
  traverse (Some (mkNode nm sc line allocs chn)) d
  = Ok tt (Report.indentation d
             ++ [Stdout (Report.header_line (Report.shown_function nm)
                           (Report.shown_script sc) line)]
             ++ Report.indentation d
             ++ [Stdout ("  " ++ Report.summary_line
                                   (Report.sum_sizes allocs mod Word.size_t_mod)
                                   (Report.sum_counts allocs mod Word.uint_mod))]
             ++ children_trace chn (S d)).
Proof.
  intros Hpos. rewrite traverse_unfold.
  destruct (totals_modular allocs) as [Hs Hc].
  unfold Report.node_report. simpl allocations. simpl name.
  simpl script_name. simpl line_number.
  rewrite Hs, Hc.
  apply Z.ltb_lt in Hpos. rewrite Hpos.
  unfold Report.node_lines. rewrite <- !app_assoc. reflexivity.
Qed.

Lemma own_totals_reported_witness :
  0 < Report.sum_counts [mkAllocation 16 3; mkAllocation 32 1] mod Word.uint_mod
  /\ traverse (Some (mkNode "B" "a.js" 3 [mkAllocation 16 3; mkAllocation 32 1] [])) 1
     = Ok tt (Report.indentation 1
                ++ [Stdout (Report.header_line (Report.shown_function "B")
                              (Report.shown_script "a.js") 3)]
                ++ Report.indentation 1
                ++ [Stdout ("  " ++ Report.summary_line
                                      (Report.sum_sizes
                                         [mkAllocation 16 3; mkAllocation 32 1]
                                         mod Word.size_t_mod)
                                      (Report.sum_counts
                                         [mkAllocation 16 3; mkAllocation 32 1]
                                         mod Word.uint_mod))]
                ++ children_trace [] 2).
Proof.
  split.
  - reflexivity.
  - apply (own_totals_reported "B" "a.js" 3 [mkAllocation 16 3; mkAllocation 32 1] [] 1).
    reflexivity.
Defined.

(** When every record counts at least one allocation and the sums fit their
    types, the guard is the presence of a record and the totals are the
    sums themselves. *)
Lemma own_totals_exact (nm sc : string) (line : Z) (allocs : list Allocation)
    (chn : list (ptr Node)) (d : nat) :
  allocs <> [] ->
  Forall (fun a => 0 <= size a /\ 1 <= count a) allocs ->
  Report.sum_sizes allocs < Word.size_t_mod ->
  Report.sum_counts allocs < Word.uint_mod ->
  traverse (Some (mkNode nm sc line allocs chn)) d
  = Ok tt (Report.indentation d
             ++ [Stdout (Report.header_line (Report.shown_function nm)
                           (Report.shown_script sc) line)]
             ++ Report.indentation d
             ++ [Stdout ("  " ++ Report.summary_line (Report.sum_sizes allocs)
                                   (Report.sum_counts allocs))]
             ++ children_trace chn (S d)).
Proof.
  intros Hne Hall Hs Hc.
  assert (Hbounds : 0 <= Report.sum_sizes allocs
                    /\ (allocs <> [] -> 1 <= Report.sum_counts allocs)).
  { clear Hne Hs Hc. induction Hall as [ | a l [Ha1 Ha2] _ [IH1 IH2] ].
    - split; [ simpl; lia | congruence ].
    - simpl. split; [ nia | ]. intros _.
      destruct l as [ | b l ]; [ simpl; lia | ].
      assert (1 <= Report.sum_counts (b :: l)) by (apply IH2; discriminate).
      lia. }
  destruct Hbounds as [H0 H1]. specialize (H1 Hne).
  destruct (totals_modular allocs) as [Es Ec].
  rewrite Z.mod_small in Es, Ec by lia.
  rewrite traverse_unfold. unfold Report.node_report, Report.node_lines.
  simpl allocations. simpl name. simpl script_name. simpl line_number.
  rewrite Es, Ec.
  replace (0 <? Report.sum_counts allocs) with true
    by (symmetry; apply Z.ltb_lt; lia).
  rewrite <- !app_assoc. reflexivity.
Qed.

(** The scenario of the specification: under [A], which holds no record
    of its own, [B] holds three allocations of 16 bytes and one of 32, and
    [C] five of 8 bytes. *)
Example round_trip_scenario :
  stdout_text
    (trace_of
       (traverse
          (Some (mkNode "(root)" EmptyString 0 []
                   [Some (mkNode "A" "a.js" 1 []
                            [Some (mkNode "B" "a.js" 3
                                     [mkAllocation 16 3; mkAllocation 32 1] []);
                             Some (mkNode "C" "a.js" 7 [mkAllocation 8 5] [])])]))
          0))
  = CString.lit
      "      Function: B (Script: a.js, Line: 3)\n      -> Total: 80 bytes, Count: 4\n    Function: C (Script: a.js, Line: 7)\n      -> Total: 40 bytes, Count: 5\n".
Proof. vm_compute. reflexivity. Qed.

(** C2: the trace of the traversal is the concatenation, along the
    depth-first pre-order of the tree (a node before its children, the
    children in the order of the child list), of what each visit writes;
    a visit that writes a summary writes the line
    [Function: <name> (Script: <script>, Line: <n>)] and then, indented,
    the line [-> Total: <bytes> bytes, Count: <n>]. *)
Theorem report_is_preorder (root : Node) (samples : list Sample) (d : nat) :
  traverse (Some root) d
  = Ok tt (flat_map
             (fun v : Node * nat =>
                let (node, k) := v in
                (Report.indentation k ++
                 (if 0 <? total_count (allocations node) then
                    [Stdout (Report.header_line
                               (Report.shown_function (name node))
                               (Report.shown_script (script_name node))
                               (line_number node))]
                      ++ Report.indentation k
                      ++ [Stdout ("  " ++ Report.summary_line
                                            (total_size (allocations node))
                                            (total_count (allocations node)))%string]
                  else []))%list)
             (Report.preorder root d))
  /\ PrintAllocationProfile (Some (mkProfile (Some root) samples))
     = Ok tt ([Stdout (CString.lit "=== Allocation Profile ===\n");
               Stdout ("Total samples: "
                         ++ CString.dec (Z.of_nat (List.length samples))
                         ++ Report.nl)]
                ++ flat_map (fun v => Report.node_report (fst v) (snd v))
                     (Report.preorder root 0)).
Proof.
  assert (Hpre : forall k, traverse (Some root) k
                 = Ok tt (flat_map (fun v => Report.node_report (fst v) (snd v))
                            (Report.preorder root k))).
  { intros k. rewrite (traverse_completes (Some root) k).
    change (traverse (Some root) k) with (traverse_node root k).
    rewrite traverse_node_preorder. reflexivity. }
  split.
  - rewrite Hpre. f_equal. apply flat_map_ext. intros [node k]. reflexivity.
  - rewrite report_of_root, Hpre. reflexivity.
Qed.

(** C3, as stated, fails: for a profile whose root has neither children nor
    records the reporter writes the banner and the number of samples and
    then nothing; neither of its two messages for missing data is among
    the output. *)
Lemma empty_profile_counterexample :
  PrintAllocationProfile (Some (mkProfile (Some (mkNode "(root)" "" 0 [] [])) []))
  = Ok tt [Stdout (CString.lit "=== Allocation Profile ===\n");
           Stdout (CString.lit "Total samples: 0\n")]
  /\ ~ Report.indicates_no_data
         (trace_of (PrintAllocationProfile
                      (Some (mkProfile (Some (mkNode "(root)" "" 0 [] [])) [])))).
Proof.
  split; [ reflexivity | ].
  intros [s [Hs Hin]]. simpl in Hs, Hin.
  destruct Hs as [<- | [<- | []]];
    destruct Hin as [H | [H | []]]; discriminate H.
Qed.

(** C3 (amended): for every profile whose root exists and has neither
    children nor allocation records, the report is the banner line and the
    line with the number of samples, and nothing is written for the tree;
    no message for missing data is written. *)
Theorem empty_profile_report (nm sc : string) (line : Z) (samples : list Sample) :
  PrintAllocationProfile (Some (mkProfile (Some (mkNode nm sc line [] [])) samples))
  = Ok tt [Stdout (CString.lit "=== Allocation Profile ===\n");
           Stdout ("Total samples: "
                     ++ CString.dec (Z.of_nat (List.length samples)) ++ Report.nl)]
  /\ ~ Report.indicates_no_data
         (trace_of (PrintAllocationProfile
                      (Some (mkProfile (Some (mkNode nm sc line [] [])) samples)))).
Proof.
  assert (E : PrintAllocationProfile
                (Some (mkProfile (Some (mkNode nm sc line [] [])) samples))
              = Ok tt [Stdout (CString.lit "=== Allocation Profile ===\n");
                       Stdout ("Total samples: "
                                 ++ CString.dec (Z.of_nat (List.length samples))
                                 ++ Report.nl)]).
  { rewrite report_of_root, traverse_unfold. reflexivity. }
  split; [ exact E | ].
  rewrite E. intros [s [Hs Hin]]. simpl in Hs, Hin.
  destruct Hs as [<- | [<- | []]];
    destruct Hin as [H | [H | []]]; discriminate H.
Qed.

(** C4: a node without allocation records is visited, and so is every one
    of its children, in order and one level deeper; the node itself adds
    its indentation only, neither an identifying nor a summary line. *)
Theorem recordless_node_visited (nm sc : string) (line : Z)
    (chn : list (ptr Node)) (d : nat) :
  traverse (Some (mkNode nm sc line [] chn)) d
  = Ok tt (Report.indentation d
             ++ flat_map (fun child => trace_of (traverse child (S d))) chn)
  /\ for_each (fun child => traverse child (S d)) chn
     = Ok tt (flat_map (fun child => trace_of (traverse child (S d))) chn).
Proof.
  split.
  - rewrite traverse_unfold. unfold Report.node_report. simpl.
    rewrite app_nil_r. reflexivity.
  - apply loop_over_children.
Qed.

(** C5: an empty function name is shown as [<anonymous>] and an empty script
    name as [<unknown>]; the node is reported like any other. *)
Theorem sentinel_names (nm sc : string) (line : Z) (allocs : list Allocation)
    (chn : list (ptr Node)) (d : nat) :
  0 < total_count allocs ->
  (func_name_of EmptyString = "<anonymous>"
   /\ script_name_of EmptyString = "<unknown>")
  /\ traverse (Some (mkNode EmptyString sc line allocs chn)) d
     = Ok tt (Report.indentation d
                ++ [Stdout (Report.header_line "<anonymous>"
                              (Report.shown_script sc) line)]
                ++ Report.indentation d
                ++ [Stdout ("  " ++ Report.summary_line (total_size allocs)
                                      (total_count allocs))]
                ++ children_trace chn (S d))
  /\ traverse (Some (mkNode nm EmptyString line allocs chn)) d
     = Ok tt (Report.indentation d
                ++ [Stdout (Report.header_line (Report.shown_function nm)
                              "<unknown>" line)]
                ++ Report.indentation d
                ++ [Stdout ("  " ++ Report.summary_line (total_size allocs)
                                      (total_count allocs))]
                ++ children_trace chn (S d)).
Proof.
  intros Hpos. apply Z.ltb_lt in Hpos.
  split; [ split; reflexivity | ].
  split; rewrite traverse_unfold; unfold Report.node_report, Report.node_lines;
    simpl allocations; simpl name; simpl script_name; simpl line_number;
    rewrite Hpos; rewrite <- !app_assoc; reflexivity.
Qed.

Lemma sentinel_names_witness :
  0 < total_count [mkAllocation 8 5]
  /\ traverse (Some (mkNode EmptyString EmptyString 7 [mkAllocation 8 5] [])) 0
     = Ok tt [Stdout (Report.header_line "<anonymous>" "<unknown>" 7);
              Stdout ("  " ++ Report.summary_line 40 5)].
Proof.
  split.
  - reflexivity.
  - exact (proj1 (proj2 (sentinel_names EmptyString EmptyString 7
                           [mkAllocation 8 5] [] 0 eq_refl))).
Defined.

(** C8: at depth [d] the visit of a node first writes [d] times two
    spaces, whatever the records of the node; a node without records
    writes these [2 * d] spaces and no line of its own. *)
Theorem indentation_unconditional (nm sc : string) (line : Z)
    (allocs : list Allocation) (chn : list (ptr Node)) (d : nat) :
  traverse (Some (mkNode nm sc line allocs chn)) d
  = Ok tt (Report.indentation d
             ++ (if 0 <? total_count allocs
                 then Report.node_lines nm sc line
                        (total_size allocs) (total_count allocs) d
                 else [])
             ++ children_trace chn (S d))
  /\ stdout_text (Report.indentation d) = Report.spaces (2 * d)
  /\ String.length (Report.spaces (2 * d)) = (2 * d)%nat
  /\ stdout_text (trace_of (traverse (Some (mkNode nm sc line [] chn)) d))
     = Report.spaces (2 * d) ++ stdout_text (children_trace chn (S d)).
Proof.
  split; [ | split; [ | split ] ].
  - rewrite traverse_unfold. unfold Report.node_report. simpl.
    rewrite <- app_assoc. reflexivity.
  - apply indentation_text.
  - generalize (2 * d)%nat. intros n.
    induction n as [ | n IH ]; simpl; [ reflexivity | now rewrite IH ].
  - rewrite traverse_unfold. unfold Report.node_report. simpl.
    rewrite app_nil_r, stdout_text_app, indentation_text. reflexivity.
Qed.

(** C9: a null profile yields the line [No allocation profile available]
    and nothing else; a null root yields, after the banner and the number
    of samples, the line [No root node found]; the traversal of a null node
    does nothing; and no run of the reporter reads through a null pointer:
    every run completes. *)
Theorem null_pointers_guarded :
  PrintAllocationProfile None
  = Ok tt [Stdout (CString.lit "No allocation profile available\n")]
  /\ (forall samples,
        PrintAllocationProfile (Some (mkProfile None samples))
        = Ok tt [Stdout (CString.lit "=== Allocation Profile ===\n");
                 Stdout ("Total samples: "
                           ++ CString.dec (Z.of_nat (List.length samples))
                           ++ Report.nl);
                 Stdout (CString.lit "No root node found\n")])
  /\ (forall d, traverse None d = Ok tt [])
  /\ (forall node d, exists t, traverse node d = Ok tt t)
  /\ (forall profile, exists t, PrintAllocationProfile profile = Ok tt t).
Proof.
  split; [ reflexivity | ].
  split; [ intros samples; reflexivity | ].
  split; [ intros d; reflexivity | ].
  split.
  - intros node d. eexists. apply traverse_completes.
  - intros profile. eexists. apply PrintAllocationProfile_completes.
Qed.

(** C10: the totals are sums in machine arithmetic, the size total modulo
    2^64 and the count total modulo 2^32; nothing detects an overflow: a
    record of size 2^63 and count 2 is reported with 0 bytes, and counts
    2^32 - 1 and 2 add up to 1. *)
Theorem totals_wrap_around :
  (Word.size_t_mod = 2 ^ 64 /\ Word.uint_mod = 2 ^ 32)
  /\ (forall allocs,
        total_size allocs = Report.sum_sizes allocs mod 2 ^ 64
        /\ total_count allocs = Report.sum_counts allocs mod 2 ^ 32)
  /\ traverse (Some (mkNode "f" "s.js" 1 [mkAllocation (2 ^ 63) 2] [])) 0
     = Ok tt [Stdout (Report.header_line "f" "s.js" 1);
              Stdout ("  " ++ Report.summary_line 0 2)]
  /\ traverse (Some (mkNode "f" "s.js" 1
                       [mkAllocation 1 (2 ^ 32 - 1); mkAllocation 1 2] [])) 0
     = Ok tt [Stdout (Report.header_line "f" "s.js" 1);
              Stdout ("  " ++ Report.summary_line (2 ^ 32 + 1) 1)].
Proof.
  split; [ split; reflexivity | ].
  split; [ intros allocs; apply totals_modular | ].
  split; vm_compute; reflexivity.
Qed.

(** ** The two programs *)

Lemma print_heap_spaces_trace (spaces : list HeapSpaceStatistics) :
  forall i, print_heap_spaces i spaces = Ok tt (Report.heap_space_blocks i spaces).
Proof.
  induction spaces as [ | sp spaces IH ]; intros i; [ reflexivity | ].
  simpl print_heap_spaces. rewrite IH. reflexivity.
Qed.

Lemma print_args_completes (args : list string) :
  forall i, completes (print_args i args).
Proof.
  induction args as [ | str args IH ]; intros i; [ reflexivity | ].
  simpl print_args. unfold completes.
  rewrite (IH (S i)). destruct (0 <? i)%nat; reflexivity.
Qed.

Lemma print_callback_completes (args : list string) :
  completes (print_callback args).
Proof.
  unfold print_callback, completes.
  rewrite (print_args_completes args 0). reflexivity.
Qed.

Lemma printed_trace (calls : list (list string)) :
  for_each print_callback calls = Ok tt (Run.printed calls).
Proof.
  apply for_each_completes, Forall_forall.
  intros args _. apply print_callback_completes.
Qed.

(** C6, as stated, fails for the sample that reads its script from a file:
    its output has no allocation-profile report, no line for the heap size
    limit and no heap space. *)
Lemma heap_statistics_counterexample :
  ~ In (Stdout (CString.lit "=== Allocation Profile ===\n"))
       (trace_of (main_file Run.sample_host "heap-profiler" ["test.js"]))
  /\ ~ Report.lists_limit_and_spaces Run.sample_host
         (trace_of (main_file Run.sample_host "heap-profiler" ["test.js"])).
Proof.
  split.
  - vm_compute. intros H.
    repeat (destruct H as [H | H]; [ discriminate H | ]). exact H.
  - intros [H _]. vm_compute in H.
    repeat (destruct H as [H | H]; [ discriminate H | ]). exact H.
Qed.

(** C6 (amended): the sample with the embedded script writes, right after
    the allocation-profile report, a heap-statistics block with the total
    heap size, the used heap size, the heap size limit and the number of
    native contexts, followed, for every heap space in order, by its name,
    its total size and its used size; the sample that reads its script
    from a file writes no allocation-profile report and a basic block with
    the total heap size, the used heap size and the total of allocated
    bytes only. *)
Theorem heap_statistics_blocks (h : Host) (calls : list (list string)) (r : string)
    (argv0 path : string) (more : list string) (js : string)
    (calls' : list (list string)) (r' : string) :
  new_string h js_code = true ->
  compile h js_code = true ->
  run h js_code = Some (calls, r) ->
  file_contents h path = Some js ->
  js <> EmptyString ->
  new_string h (CString.c_str js) = true ->
  compile h (CString.c_str js) = true ->
  run h (CString.c_str js) = Some (calls', r') ->
  main_embedded h
  = Ok 0 (Run.embedded_prologue r
            ++ trace_of (PrintAllocationProfile (allocation_profile h))
            ++ [Call GetHeapStatistics]
            ++ Report.heap_statistics_block (heap_statistics h)
            ++ Report.heap_space_blocks 0 (heap_spaces h)
            ++ Run.epilogue)
  /\ main_file h argv0 (path :: more)
     = Ok 0 (Run.file_prologue path
               ++ Run.printed calls'
               ++ Run.file_results r'
               ++ [Call GetHeapStatistics]
               ++ Report.basic_heap_statistics_block (heap_statistics h)
               ++ Run.epilogue).
Proof.
  intros Hs Hc Hr Hfile Hjs Hs' Hc' Hr'. split.
  - unfold main_embedded, compile_and_run. rewrite Hs, Hc, Hr.
    rewrite print_heap_spaces_trace.
    pose proof (PrintAllocationProfile_completes (allocation_profile h)) as Hp.
    unfold completes in Hp. revert Hp.
    generalize (trace_of (PrintAllocationProfile (allocation_profile h))).
    intros t Ht. rewrite Ht. reflexivity.
  - unfold main_file, ReadFile, compile_and_run.
    simpl hd. rewrite Hfile.
    assert (Hlen : (String.length js =? 0)%nat = false).
    { destruct js; [ congruence | reflexivity ]. }
    replace (1 + Z.of_nat (List.length (path :: more)) <? 2) with false
      by (symmetry; apply Z.ltb_ge; simpl List.length; lia).
    cbn -[CString.c_str Nat.eqb String.length for_each CString.format CString.lit].
    rewrite Hlen, Hs', Hc', Hr'.
    cbn -[CString.c_str for_each CString.format CString.lit].
    rewrite printed_trace. reflexivity.
Qed.

Lemma heap_statistics_blocks_witness :
  run Run.sample_host js_code = Some ([["Starting allocation test..."]], "undefined")
  /\ file_contents Run.sample_host "test.js" = Some "gc();"
  /\ main_embedded Run.sample_host
     = Ok 0 (Run.embedded_prologue "undefined"
               ++ trace_of (PrintAllocationProfile (allocation_profile Run.sample_host))
               ++ [Call GetHeapStatistics]
               ++ Report.heap_statistics_block (heap_statistics Run.sample_host)
               ++ Report.heap_space_blocks 0 (heap_spaces Run.sample_host)
               ++ Run.epilogue)
  /\ main_file Run.sample_host "heap-profiler" ["test.js"]
     = Ok 0 (Run.file_prologue "test.js"
               ++ Run.printed [["Starting allocation test..."]]
               ++ Run.file_results "undefined"
               ++ [Call GetHeapStatistics]
               ++ Report.basic_heap_statistics_block (heap_statistics Run.sample_host)
               ++ Run.epilogue).
Proof.
  split; [ reflexivity | ].
  split; [ reflexivity | ].
  apply (heap_statistics_blocks Run.sample_host
           [["Starting allocation test..."]] "undefined"
           "heap-profiler" "test.js" [] "gc();"
           [["Starting allocation test..."]] "undefined").
  - reflexivity.
  - reflexivity.
  - reflexivity.
  - reflexivity.
  - discriminate.
  - reflexivity.
  - reflexivity.
  - reflexivity.
Defined.

(** C7: started without a script path, the sample that reads a file writes
    its two usage lines to the error stream and returns the status 1; it
    has then called nothing of the runtime, neither its initialization nor
    the start of the sampling, and written nothing to the standard
    output. *)
Theorem usage_error (h : Host) (argv0 : string) :
  main_file h argv0 []
  = Ok 1 [Stderr ("Usage: " ++ CString.c_str argv0 ++ " <javascript_file>"
                    ++ Report.nl);
          Stderr ("Example: " ++ CString.c_str argv0 ++ " test.js" ++ Report.nl)]
  /\ 1 <> 0
  /\ (forall c, ~ In (Call c) (trace_of (main_file h argv0 [])))
  /\ stdout_text (trace_of (main_file h argv0 [])) = EmptyString.
Proof.
  split; [ reflexivity | ].
  split; [ discriminate | ].
  split; [ | reflexivity ].
  intros c H. simpl in H.
  destruct H as [H | [H | []]]; discriminate H.
Qed.

(** * Further properties *)

(** ** The totals of a node *)

Lemma sums_permutation (allocs allocs' : list Allocation) :
  Permutation allocs allocs' ->
  Report.sum_sizes allocs = Report.sum_sizes allocs'
  /\ Report.sum_counts allocs = Report.sum_counts allocs'.
Proof.
  induction 1 as [ | x l l' _ [IHs IHc] | x y l | l l' l'' _ [IH1 IH2] _ [IH3 IH4] ];
    simpl; split; lia.
Qed.

(** The totals of a node, and with them everything the traversal writes,
    do not depend on the order of the node's allocation records. *)
Theorem totals_order_independent (nm sc : string) (line : Z)
    (allocs allocs' : list Allocation) (chn : list (ptr Node)) (d : nat) :
  Permutation allocs allocs' ->
  total_size allocs = total_size allocs'
  /\ total_count allocs = total_count allocs'
  /\ traverse (Some (mkNode nm sc line allocs chn)) d
     = traverse (Some (mkNode nm sc line allocs' chn)) d.
Proof.
  intros Hperm.
  destruct (sums_permutation _ _ Hperm) as [Hs Hc].
  destruct (totals_modular allocs) as [Es Ec].
  destruct (totals_modular allocs') as [Es' Ec'].
  assert (Ts : total_size allocs = total_size allocs') by congruence.
  assert (Tc : total_count allocs = total_count allocs') by congruence.
  split; [ exact Ts | ]. split; [ exact Tc | ].
  rewrite !traverse_unfold. unfold Report.node_report. simpl.
  rewrite Ts, Tc. reflexivity.
Qed.

Lemma totals_order_independent_witness :
  Permutation [mkAllocation 16 3; mkAllocation 32 1]
    [mkAllocation 32 1; mkAllocation 16 3]
  /\ total_size [mkAllocation 16 3; mkAllocation 32 1]
     = total_size [mkAllocation 32 1; mkAllocation 16 3].
Proof.
  split.
  - apply perm_swap.
  - exact (proj1 (totals_order_independent "B" "a.js" 3
                    [mkAllocation 16 3; mkAllocation 32 1]
                    [mkAllocation 32 1; mkAllocation 16 3] [] 0
                    (perm_swap _ _ _))).
Defined.


(** A node whose counts add up to a multiple of 2^32, in particular one
    whose records all have the count 0, is treated like a node without
    records: its indentation and the traces of its children, no line. *)
Theorem zero_total_count_not_reported (nm sc : string) (line : Z)
    (allocs : list Allocation) (chn : list (ptr Node)) (d : nat) :
  Report.sum_counts allocs mod 2 ^ 32 = 0 ->
  traverse (Some (mkNode nm sc line allocs chn)) d
  = Ok tt (Report.indentation d ++ children_trace chn (S d)).
Proof.
  intros Hzero. rewrite traverse_unfold. unfold Report.node_report. simpl.
  destruct (totals_modular allocs) as [_ Ec].
  change Word.uint_mod with (2 ^ 32) in Ec. rewrite Hzero in Ec.
  rewrite Ec. simpl. rewrite app_nil_r. reflexivity.
Qed.

Lemma zero_total_count_not_reported_witness :
  Report.sum_counts [mkAllocation 8 (2 ^ 31); mkAllocation 8 (2 ^ 31)] mod 2 ^ 32 = 0
  /\ traverse (Some (mkNode "f" "s.js" 1
                       [mkAllocation 8 (2 ^ 31); mkAllocation 8 (2 ^ 31)] [])) 2
     = Ok tt (Report.indentation 2 ++ children_trace [] 3).
Proof.
  split.
  - reflexivity.
  - apply (zero_total_count_not_reported "f" "s.js" 1
             [mkAllocation 8 (2 ^ 31); mkAllocation 8 (2 ^ 31)] [] 2).
    reflexivity.
Defined.

(** ** The shape of the report *)

Lemma children_trace_non_null (chn : list (ptr Node)) (d : nat) :
  children_trace (non_null_children chn) d = children_trace chn d.
Proof.
  induction chn as [ | child chn IH ]; [ reflexivity | ].
  destruct child as [c | ]; simpl.
  - unfold children_trace in *. simpl. rewrite <- IH. reflexivity.
  - exact IH.
Qed.

(** Null entries in a child list change nothing: the traversal of a node
    is the traversal of the node with the null entries removed. *)
Theorem null_children_skipped (nm sc : string) (line : Z)
    (allocs : list Allocation) (chn : list (ptr Node)) (d : nat) :
  traverse (Some (mkNode nm sc line allocs chn)) d
  = traverse (Some (mkNode nm sc line allocs (non_null_children chn))) d.
Proof.
  rewrite !traverse_unfold, children_trace_non_null. reflexivity.
Qed.

Lemma spaces_add (a b : nat) :
  Report.spaces (a + b) = Report.spaces a ++ Report.spaces b.
Proof.
  induction a as [ | a IH ]; simpl; [ reflexivity | now rewrite IH ].
Qed.

Lemma silent_visits_text (l : list (Node * nat)) :
  Forall (fun v => total_count (allocations (fst v)) = 0) l ->
  stdout_text (flat_map (fun v => Report.node_report (fst v) (snd v)) l)
  = Report.spaces (2 * list_sum (map snd l)).
Proof.
  induction 1 as [ | [node k] l Hv _ IH ]; [ reflexivity | ].
  simpl flat_map. rewrite stdout_text_app, IH.
  unfold Report.node_report. simpl fst in *. simpl snd. rewrite Hv.
  simpl. rewrite app_nil_r, indentation_text, <- spaces_add.
  f_equal. lia.
Qed.

(** A tree in which no node has a positive total count leaves nothing but
    blanks on the standard output, two for every level of every visited
    node, and no line end. *)
Theorem silent_tree_writes_blanks (root : Node) (d : nat) :
  Forall (fun v => total_count (allocations (fst v)) = 0) (Report.preorder root d) ->
  stdout_text (trace_of (traverse (Some root) d))
  = Report.spaces (2 * list_sum (map snd (Report.preorder root d))).
Proof.
  intros Hsilent.
  change (traverse (Some root) d) with (traverse_node root d).
  rewrite traverse_node_preorder. apply silent_visits_text, Hsilent.
Qed.

Lemma silent_tree_writes_blanks_witness :
  stdout_text
    (trace_of
       (traverse
          (Some (mkNode "(root)" EmptyString 0 []
                   [Some (mkNode "A" "a.js" 1 []
                            [Some (mkNode "B" "a.js" 3 [mkAllocation 16 0] []);
                             None])]))
          0))
  = Report.spaces 6.
Proof.
  apply (silent_tree_writes_blanks
           (mkNode "(root)" EmptyString 0 []
              [Some (mkNode "A" "a.js" 1 []
                       [Some (mkNode "B" "a.js" 3 [mkAllocation 16 0] []);
                        None])])
           0).
  repeat constructor.
Defined.



(** ** The [print] callback *)


Lemma string_app_assoc (s1 s2 s3 : string) : (s1 ++ s2) ++ s3 = s1 ++ s2 ++ s3.
Proof. induction s1 as [ | c s1 IH ]; simpl; [ reflexivity | now rewrite IH ]. Qed.



(** ** The exit status of the two programs *)

Lemma argc_with_argument (path : string) (more : list string) :
  (1 + Z.of_nat (List.length (path :: more)) <? 2) = false.
Proof. apply Z.ltb_ge. simpl List.length. lia. Qed.

(** When the script file cannot be opened, or is empty, the sample that
    reads a file reports it on the error stream and returns the status 1;
    it has then started the runtime and the sampling and returns without
    stopping the sampling and without disposing of the runtime. *)
Theorem unreadable_script (h : Host) (argv0 path : string) (more : list string) :
  file_contents h path = None \/ file_contents h path = Some EmptyString ->
  main_file h argv0 (path :: more)
  = Ok 1 (file_start path
            ++ match file_contents h path with
               | None => [Stderr ("Error: Could not open file "
                                    ++ CString.c_str path ++ Report.nl)]
               | Some _ => []
               end
            ++ [Stderr ("Failed to read JavaScript file: "
                          ++ CString.c_str path ++ Report.nl)])
  /\ In (Call (StartSamplingHeapProfiler 1024 16))
        (trace_of (main_file h argv0 (path :: more)))
  /\ ~ In (Call StopSamplingHeapProfiler) (trace_of (main_file h argv0 (path :: more)))
  /\ ~ In (Call Isolate_Dispose) (trace_of (main_file h argv0 (path :: more)))
  /\ ~ In (Call Script_Compile) (trace_of (main_file h argv0 (path :: more))).
Proof.
  intros Hfile.
  assert (E : main_file h argv0 (path :: more)
              = Ok 1 (file_start path
                        ++ match file_contents h path with
                           | None => [Stderr ("Error: Could not open file "
                                                ++ CString.c_str path ++ Report.nl)]
                           | Some _ => []
                           end
                        ++ [Stderr ("Failed to read JavaScript file: "
                                      ++ CString.c_str path ++ Report.nl)])).
  { unfold main_file, ReadFile. rewrite argc_with_argument. simpl hd.
    destruct Hfile as [-> | ->]; reflexivity. }
  split; [ exact E | ].
  rewrite E. simpl trace_of.
  destruct Hfile as [-> | ->]; simpl;
    (split; [ tauto | ]);
    repeat split; intros H;
    repeat (destruct H as [H | H]; [ discriminate H | ]); exact H.
Qed.

Lemma unreadable_script_witness :
  file_contents Run.sample_host "missing.js" = None
  /\ status (main_file Run.sample_host "heap-profiler" ["missing.js"]) = Some 1.
Proof.
  split.
  - reflexivity.
  - rewrite (proj1 (unreadable_script Run.sample_host "heap-profiler" "missing.js" []
                      (or_introl eq_refl))).
    reflexivity.
Defined.

(** The status of the sample that reads a file: 1 without an argument and
    for a file that cannot be opened or is empty; otherwise 0, unless the
    runtime hands back an empty handle for the script text up to its
    first NUL byte, in which case the run stops there. *)
Theorem main_file_status (h : Host) (argv0 : string) (args : list string) :
  status (main_file h argv0 args)
  = match args with
    | [] => Some 1
    | path :: _ =>
        match file_contents h path with
        | None => Some 1
        | Some js =>
            if (String.length js =? 0)%nat then Some 1
            else if (new_string h (CString.c_str js)
                     && compile h (CString.c_str js)
                     && is_some (run h (CString.c_str js)))%bool
                 then Some 0
                 else None
        end
    end.
Proof.
  destruct args as [ | path more ]; [ reflexivity | ].
  unfold main_file, ReadFile, compile_and_run.
  rewrite argc_with_argument. simpl hd.
  destruct (file_contents h path) as [js | ]; [ | reflexivity ].
  destruct (String.length js =? 0)%nat eqn:Hlen.
  - cbn -[CString.c_str Nat.eqb String.length]. rewrite Hlen. reflexivity.
  - cbn -[CString.c_str Nat.eqb String.length for_each CString.format CString.lit].
    rewrite Hlen.
    destruct (new_string h (CString.c_str js)); [ | reflexivity ].
    destruct (compile h (CString.c_str js)); [ | reflexivity ].
    destruct (run h (CString.c_str js)) as [[calls r] | ]; [ | reflexivity ].
    cbn -[CString.c_str for_each CString.format CString.lit].
    rewrite printed_trace. reflexivity.
Qed.

(** The sample with the embedded script never returns a status other than
    0: it returns 0 when the runtime accepts, compiles and runs the
    script, and stops at the empty handle otherwise. *)
Theorem main_embedded_status (h : Host) :
  status (main_embedded h)
  = if (new_string h js_code && compile h js_code && is_some (run h js_code))%bool
    then Some 0
    else None.
Proof.
  unfold main_embedded, compile_and_run.
  destruct (new_string h js_code); [ | reflexivity ].
  destruct (compile h js_code); [ | reflexivity ].
  destruct (run h js_code) as [[calls r] | ]; [ | reflexivity ].
  rewrite print_heap_spaces_trace.
  rewrite (PrintAllocationProfile_completes (allocation_profile h)).
  reflexivity.
Qed.

(** Only the bytes of the script file before its first NUL byte matter:
    two non-empty files that agree up to there give the same run. *)
Theorem script_read_up_to_NUL (h : Host) (js js' : string) (argv0 : string)
    (args : list string) :
  js <> EmptyString -> js' <> EmptyString ->
  CString.c_str js = CString.c_str js' ->
  main_file (with_contents h js) argv0 args
  = main_file (with_contents h js') argv0 args.
Proof.
  intros Hjs Hjs' Heq.
  destruct args as [ | path more ]; [ reflexivity | ].
  unfold main_file, ReadFile. rewrite argc_with_argument.
  destruct js as [ | c js ]; [ congruence | ].
  destruct js' as [ | c' js' ]; [ congruence | ].
  cbn -[CString.c_str compile_and_run for_each CString.format CString.lit].
  rewrite Heq. reflexivity.
Qed.

Lemma script_read_up_to_NUL_witness :
  CString.c_str ("gc();" ++ String CString.NUL "junk") = CString.c_str "gc();"
  /\ main_file (with_contents Run.sample_host ("gc();" ++ String CString.NUL "junk"))
       "heap-profiler" ["test.js"]
     = main_file (with_contents Run.sample_host "gc();") "heap-profiler" ["test.js"].
Proof.
  split.
  - reflexivity.
  - apply (script_read_up_to_NUL Run.sample_host
             ("gc();" ++ String CString.NUL "junk") "gc();"
             "heap-profiler" ["test.js"]).
    + discriminate.
    + discriminate.
    + reflexivity.
Defined.
